(** * Benzene (Hex): VCUtil, DfsData and the book commands

    A shallow embedding of [VCUtil::GetMustplay], [VCUtil::ValidEdgeBridge]
    (src/hex/VCUtil.cpp), of the solver's proof record [DfsData]
    (DfsData.hpp) and of three handlers of BookCommands.cpp, with the
    properties the specification states about them and further properties
    read off the code.

    Conventions.
    - A [HexPoint] is the integer value of the C++ enum.
    - A [bitset_t] (a [std::bitset<BITSETSIZE>]) is the integer whose binary
      digits are the bits of the set; [&] is [Z.land], [test] is [Z.testbit].
    - Collaborators whose code is outside this development (the board
      geometry, the connection sets, [HexPointUtil::isEdge], the colour
      negation [operator!], the constants [BITSETSIZE] and [INVALID_POINT])
      are parameters: records for the objects, section variables for the
      free functions and constants. *)

From Stdlib Require Import ZArith List Bool Lia Permutation.
From Stdlib Require Strings.Byte Strings.Ascii Strings.String.
Import ListNotations.
Local Open Scope Z_scope.

(** ** Points *)

Definition HexPoint : Type := Z.

(** ** Bitsets *)

Definition bitset_t : Type := Z.

Definition EMPTY_BITSET : bitset_t := 0.

Module BitsetUtil.

(** The bit positions [0 .. size-1] of a bitset of capacity [size]. *)
Definition positions (size : nat) : list Z := map Z.of_nat (seq 0 size).

(** [b.test(i)] *)
Definition test (b : bitset_t) (i : Z) : bool := Z.testbit b i.

(** [BitsetUtil::BitsetToVector(b, indices)]: the positions of the set
    bits, pushed in increasing order. *)
Definition BitsetToVector (size : nat) (b : bitset_t) : list HexPoint :=
  filter (test b) (positions size).

(** [b.count()] *)
Definition count (size : nat) (b : bitset_t) : nat :=
  length (BitsetToVector size b).

(** [b.any()] *)
Definition any (size : nat) (b : bitset_t) : bool :=
  existsb (test b) (positions size).

(** [a & b] *)
Definition band (a b : bitset_t) : bitset_t := Z.land a b.

End BitsetUtil.

Import BitsetUtil.

(** ** The board objects read by [VCUtil] *)

(** [ConstBoard]: the geometry of a board. [Nbs p] is the sequence a
    [BoardIterator] over [brd.Const().Nbs(p)] yields; [Rotate180] is the
    board's 180-degree symmetry mapping of cells, which [DfsData::Rotate]
    consults. *)
Record ConstBoard : Type := mkConstBoard {
  Adjacent : HexPoint -> HexPoint -> bool;
  Nbs : HexPoint -> list HexPoint;
  Rotate180 : HexPoint -> HexPoint
}.

(** [StoneBoard]: a geometry together with the stones on it. *)
Record StoneBoard : Type := mkStoneBoard {
  Const : ConstBoard;
  GetOccupied : bitset_t;
  GetEmpty : bitset_t
}.

(** [VCS]: the connection set of one colour, as far as [GetMustplay]
    queries it. *)
Record VCS : Type := mkVCS {
  FullExists : bool;
  SemiIntersection : bitset_t
}.

(** What a call of [ValidEdgeBridge] leaves behind: either the assertion
    [BenzeneAssert(adj.size() == 2)] failed, or the call returned [result]
    with the two reference parameters holding [endpoint] and [edge]. *)
Inductive outcome : Type :=
| AssertionFailed : outcome
| Returned (result : bool) (endpoint edge : HexPoint) : outcome.

(** [v[i]] for an index inside the vector (every use below is guarded by a
    size check). *)
Definition at_ (v : list HexPoint) (i : nat) : HexPoint := nth i v 0.

Section VCUtil.

Variable BITSETSIZE : nat.
Variable isEdge : HexPoint -> bool.
Variable HexColor : Type.
Variable opposite : HexColor -> HexColor.

(** [HexBoard]: a position and the connection sets of both colours. *)
Record HexBoard : Type := mkHexBoard {
  GetPosition : StoneBoard;
  Cons : HexColor -> VCS
}.

(** [VCUtil::GetMustplay] *)
Definition GetMustplay (brd : HexBoard) (color : HexColor) : bitset_t :=
  let other := opposite color in
  if FullExists (Cons brd other) then EMPTY_BITSET
  else band (GetEmpty (GetPosition brd)) (SemiIntersection (Cons brd other)).

(** The double loop of [ValidEdgeBridge]: every [n1] of [Nbs(m0)] is
    pushed once for each [n2] of [Nbs(m1)] equal to it. *)
Definition common_nbs (cb : ConstBoard) (m0 m1 : HexPoint) : list HexPoint :=
  flat_map
    (fun n1 => flat_map (fun n2 => if n1 =? n2 then [n1] else []) (Nbs cb m1))
    (Nbs cb m0).

(** The loop [for (i = 0; i < 2; ++i)] that picks the edge, run over the
    indices still to visit. *)
Fixpoint pick_edge (todo : list nat) (adj : list HexPoint)
         (endpoint edge : HexPoint) : outcome :=
  match todo with
  | [] => Returned false endpoint edge
  | i :: rest =>
      if isEdge (at_ adj i)
      then Returned true (at_ adj (Nat.lxor i 1)) (at_ adj i)
      else pick_edge rest adj endpoint edge
  end.

(** [VCUtil::ValidEdgeBridge]; [endpoint] and [edge] are the values the
    reference parameters hold on entry. *)
Definition ValidEdgeBridge (brd : StoneBoard) (carrier : bitset_t)
           (endpoint edge : HexPoint) : outcome :=
  if negb (count BITSETSIZE carrier =? 2)%nat then
    Returned false endpoint edge
  else if any BITSETSIZE (band (GetOccupied brd) carrier) then
    Returned false endpoint edge
  else
    let miai := BitsetToVector BITSETSIZE carrier in
    if negb (Adjacent (Const brd) (at_ miai 0) (at_ miai 1)) then
      Returned false endpoint edge
    else
      let adj := common_nbs (Const brd) (at_ miai 0) (at_ miai 1) in
      if negb (length adj =? 2)%nat then AssertionFailed
      else pick_edge [0; 1]%nat adj endpoint edge.

End VCUtil.

Arguments GetPosition {HexColor} h.
Arguments Cons {HexColor} h c.
Arguments GetMustplay {HexColor} opposite brd color.

(** ** The proof record [DfsData] (DfsData.hpp) *)

(** The C++ [int] fields are kept as integers; the record does no
    arithmetic on them. *)
Record DfsData : Type := mkDfsData {
  win : bool;
  flags : Z;
  numstates : Z;
  nummoves : Z;
  bestmove : HexPoint
}.

Definition FLAG_TRANSPOSITION : Z := 1.

Definition FLAG_MIRROR_TRANSPOSITION : Z := 2.

(** [DfsData::ReplaceWith]; [UNUSED(other)] only silences a warning. *)
Definition ReplaceWith (self other : DfsData) : bool := true.

Section DfsDataInline.

Variable INVALID_POINT : HexPoint.

(** [DfsData::DfsData()] *)
Definition DfsData_default : DfsData :=
  {| win := false; flags := 0; numstates := 0; nummoves := 0;
     bestmove := INVALID_POINT |}.

(** [DfsData::DfsData(bool w, int nstates, int nmoves, HexPoint bmove)] *)
Definition DfsData_init (w : bool) (nstates nmoves : Z) (bmove : HexPoint)
  : DfsData :=
  {| win := w; flags := 0; numstates := nstates; nummoves := nmoves;
     bestmove := bmove |}.

(** [DfsData::Initialized] *)
Definition Initialized (self : DfsData) : bool :=
  negb (bestmove self =? INVALID_POINT).

End DfsDataInline.

(** ** Packing and rotation of a record

    [PackedSize], [Pack], [Unpack] and [Rotate] are declared in DfsData.hpp;
    their bodies are in a file that is not among the sources. *)

Definition byte_of_Z (z : Z) : Byte.byte :=
  match Byte.of_N (Z.to_N (z mod 256)) with
  | Some b => b
  | None => Byte.x00
  end.

Definition Z_of_byte (b : Byte.byte) : Z := Z.of_N (Byte.to_N b).

(** The [n] low bytes of [x], least significant first. *)
Fixpoint WordToBytes (n : nat) (x : Z) : list Byte.byte :=
  match n with
  | O => []
  | S n' => byte_of_Z x :: WordToBytes n' (x / 256)
  end.

(** The unsigned value of a little-endian byte string. *)
Definition BytesToWord (bs : list Byte.byte) : Z :=
  fold_right (fun b acc => Z_of_byte b + 256 * acc) 0 bs.

(** A 32-bit pattern read as a two's complement [int]. *)
Definition to_int (u : Z) : Z := if u <? 2 ^ 31 then u else u - 2 ^ 32.

(** The values of a C++ [int]. *)
Definition int_range (x : Z) : Prop := - 2 ^ 31 <= x < 2 ^ 31.

(** [t[off .. off+len-1]] *)
Definition slice (off len : nat) (t : list Byte.byte) : list Byte.byte :=
  firstn len (skipn off t).

Section DfsDataPacked.

Variable BITSETSIZE : nat.

(** A cell that a carrier of capacity [BITSETSIZE] can hold. *)
Definition in_range_point (p : HexPoint) : bool :=
  (0 <=? p) && (p <? Z.of_nat BITSETSIZE).

(** The records the specification calls valid: [int] fields inside the
    range of [int], [bestmove] a cell of the board's point range. *)
Definition valid_record (r : DfsData) : Prop :=
  int_range (flags r) /\ int_range (numstates r) /\ int_range (nummoves r) /\
  int_range (bestmove r) /\ in_range_point (bestmove r) = true.

(** Modelled from the spec: [DfsData::PackedSize], whose body is not among
    the sources; a fixed byte length sufficient for win (1 bit), flags,
    numstates, nummoves and bestmove: one byte and four 32-bit fields. *)
Definition PackedSize (self : DfsData) : nat := (1 + 4 + 4 + 4 + 4)%nat.

(** Modelled from the spec: [DfsData::Pack], whose body is not among the
    sources; the fields serialized in the fixed layout, in the order win,
    flags, numstates, nummoves, bestmove, each of fixed width. *)
Definition Pack (self : DfsData) : list Byte.byte :=
  byte_of_Z (if win self then 1 else 0)
    :: WordToBytes 4 (flags self)
    ++ WordToBytes 4 (numstates self)
    ++ WordToBytes 4 (nummoves self)
    ++ WordToBytes 4 (bestmove self).

(** Modelled from the spec: [DfsData::Unpack], whose body is not among the
    sources; the inverse of [Pack]. A byte string of another length, or one
    decoding to a [bestmove] out of range, is a contract violation and has
    no result. *)
Definition Unpack (t : list Byte.byte) : option DfsData :=
  if negb (length t =? 1 + 4 + 4 + 4 + 4)%nat then None
  else
    let bmove := to_int (BytesToWord (slice 13 4 t)) in
    if negb (in_range_point bmove) then None
    else
      Some {| win := Z.testbit (BytesToWord (slice 0 1 t)) 0;
              flags := to_int (BytesToWord (slice 1 4 t));
              numstates := to_int (BytesToWord (slice 5 4 t));
              nummoves := to_int (BytesToWord (slice 9 4 t));
              bestmove := bmove |}.

End DfsDataPacked.

(** Modelled from the spec: [DfsData::Rotate], whose body is not among the
    sources; [bestmove] remapped through the board's 180-degree symmetry
    mapping, the other fields untouched. *)
Definition Rotate (self : DfsData) (brd : ConstBoard) : DfsData :=
  {| win := win self; flags := flags self; numstates := numstates self;
     nummoves := nummoves self; bestmove := Rotate180 brd (bestmove self) |}.

(** ** Sample boards

    Concrete values for the parameters, used to run the definitions: the
    point numbering of a board with rows of eleven columns, and the
    geometries of the 2x2 and the 2x1 Hex boards. *)
Module Sample.

Definition BITSETSIZE : nat := 128.

Definition INVALID_POINT : HexPoint := 0.
Definition NORTH : HexPoint := 3.
Definition EAST : HexPoint := 4.
Definition SOUTH : HexPoint := 5.
Definition WEST : HexPoint := 6.
Definition A1 : HexPoint := 7.
Definition B1 : HexPoint := 8.
Definition A2 : HexPoint := 18.
Definition B2 : HexPoint := 19.

Definition isEdge (p : HexPoint) : bool :=
  (p =? NORTH) || (p =? SOUTH) || (p =? EAST) || (p =? WEST).

Inductive HexColor : Type := BLACK | WHITE | EMPTY.

Definition opposite (c : HexColor) : HexColor :=
  match c with BLACK => WHITE | WHITE => BLACK | EMPTY => EMPTY end.

(** The bitset holding exactly the listed points. *)
Definition bitset_of (ps : list HexPoint) : bitset_t :=
  fold_right (fun p b => Z.lor (Z.shiftl 1 p) b) 0 ps.

(** A geometry from its neighbour lists and its rotation. *)
Definition geometry (nbs : HexPoint -> list HexPoint)
           (rot : HexPoint -> HexPoint) : ConstBoard :=
  {| Adjacent := fun p1 p2 => existsb (Z.eqb p2) (nbs p1);
     Nbs := nbs;
     Rotate180 := rot |}.

(** 2x2 board: row 1 is a1 b1, row 2 is a2 b2. *)
Definition nbs_2x2 (p : HexPoint) : list HexPoint :=
  if p =? A1 then [NORTH; WEST; B1; A2]
  else if p =? B1 then [NORTH; A1; EAST; A2; B2]
  else if p =? A2 then [A1; B1; WEST; B2; SOUTH]
  else if p =? B2 then [B1; EAST; A2; SOUTH]
  else if p =? NORTH then [A1; B1; EAST; WEST]
  else if p =? EAST then [B1; B2; SOUTH; NORTH]
  else if p =? SOUTH then [A2; B2; WEST; EAST]
  else if p =? WEST then [A1; A2; NORTH; SOUTH]
  else [].

Definition rot_2x2 (p : HexPoint) : HexPoint :=
  if p =? A1 then B2
  else if p =? B2 then A1
  else if p =? B1 then A2
  else if p =? A2 then B1
  else if p =? NORTH then SOUTH
  else if p =? SOUTH then NORTH
  else if p =? EAST then WEST
  else if p =? WEST then EAST
  else p.

(** The 2x2 board with no stone but the four edges. *)
Definition board_2x2 : StoneBoard :=
  {| Const := geometry nbs_2x2 rot_2x2;
     GetOccupied := bitset_of [NORTH; EAST; SOUTH; WEST];
     GetEmpty := bitset_of [A1; B1; A2; B2] |}.

(** 2x1 board: the single row a1 b1. *)
Definition nbs_2x1 (p : HexPoint) : list HexPoint :=
  if p =? A1 then [NORTH; WEST; B1; SOUTH]
  else if p =? B1 then [NORTH; A1; EAST; SOUTH]
  else if p =? NORTH then [A1; B1; EAST; WEST]
  else if p =? EAST then [B1; SOUTH; NORTH]
  else if p =? SOUTH then [A1; B1; WEST; EAST]
  else if p =? WEST then [A1; NORTH; SOUTH]
  else [].

Definition rot_2x1 (p : HexPoint) : HexPoint :=
  if p =? A1 then B1
  else if p =? B1 then A1
  else if p =? NORTH then SOUTH
  else if p =? SOUTH then NORTH
  else if p =? EAST then WEST
  else if p =? WEST then EAST
  else p.

(** The 2x1 board with no stone but the four edges. *)
Definition board_2x1 : StoneBoard :=
  {| Const := geometry nbs_2x1 rot_2x1;
     GetOccupied := bitset_of [NORTH; EAST; SOUTH; WEST];
     GetEmpty := bitset_of [A1; B1] |}.

(** The 2x2 board after Black has played a1 and a2 and White b1 and b2:
    no cell is empty, Black's stones join NORTH to SOUTH, and White has no
    connection between EAST and WEST (an intersection over no
    semi-connection has every bit set). *)
Definition board_2x2_full : StoneBoard :=
  {| Const := geometry nbs_2x2 rot_2x2;
     GetOccupied := bitset_of [NORTH; EAST; SOUTH; WEST; A1; B1; A2; B2];
     GetEmpty := EMPTY_BITSET |}.

Definition hexboard_2x2_full : HexBoard HexColor :=
  {| GetPosition := board_2x2_full;
     Cons := fun c =>
       match c with
       | BLACK => {| FullExists := true; SemiIntersection := Z.ones 128 |}
       | _ => {| FullExists := false; SemiIntersection := Z.ones 128 |}
       end |}.

Definition record : DfsData :=
  {| win := true; flags := FLAG_MIRROR_TRANSPOSITION; numstates := 1234;
     nummoves := 3; bestmove := A2 |}.

End Sample.

(** The empty 2x2 board, White to be blocked: White has no full connection
    and its semi-connections share the cells a1 and b1. *)
Module SampleMustplay.

Definition hexboard_2x2 : HexBoard Sample.HexColor :=
  {| GetPosition := Sample.board_2x2;
     Cons := fun c =>
       match c with
       | Sample.WHITE =>
           {| FullExists := false;
              SemiIntersection :=
                Sample.bitset_of [Sample.A1; Sample.B1; Sample.NORTH] |}
       | _ => {| FullExists := false; SemiIntersection := Z.ones 128 |}
       end |}.

End SampleMustplay.

(** ** The book commands (BookCommands.cpp)

    The handlers that only touch the book pointer [m_book], the book
    parameters [m_bookCheck] and the command's response. The command object
    and the book are collaborators: the accessors of [HtpCommand] and the
    constructor of [Book] are parameters, an accessor that throws being one
    that returns [false] or [None]. *)
Module BookCommands.

Import Ascii String.
Local Open Scope string_scope.

(** How a handler ends: it returns, or an accessor of the command throws
    its [GtpFailure], or the handler throws [HtpFailure() << msg]. *)
Inductive status : Type :=
| Done : status
| ArgFailure : status
| HtpFailure (msg : string) : status.

(** The newline character and the string ['\n]. *)
Definition nl : ascii := ascii_of_nat 10.
Definition quote_nl : string := String "'" (String nl EmptyString).

Section Handlers.

Variable Book : Type.
Variable float : Type.
Variable HtpCommand : Type.
Variable CheckArgNone : HtpCommand -> bool.
Variable CheckNuArgLessEqual : HtpCommand -> nat -> bool.
Variable NuArg : HtpCommand -> nat.
Variable Arg : HtpCommand -> nat -> option string.
Variable FloatArg : HtpCommand -> nat -> option float.
Variable SizeTypeArg : HtpCommand -> nat -> N -> option N.
(** [new Book(fn)]: the book, or the text of the [HexException] thrown. *)
Variable Book_new : string -> Book + string.

(** What [cmd << x] appends to the response. *)
Inductive item : Type :=
| Str (s : string) : item
| Chr (c : ascii) : item
| Flt (f : float) : item
| Siz (n : N) : item.

(** [BookCheck], as far as its two parameters go. *)
Record BookCheck : Type := mkBookCheck {
  MinCount : N;
  CountWeight : float
}.

Definition SetMinCount (bc : BookCheck) (n : N) : BookCheck :=
  {| MinCount := n; CountWeight := CountWeight bc |}.

Definition SetCountWeight (bc : BookCheck) (w : float) : BookCheck :=
  {| MinCount := MinCount bc; CountWeight := w |}.

(** The members a handler can change, and the response of the command. *)
Record state : Type := mkState {
  m_book : option Book;
  m_bookCheck : BookCheck;
  response : list item
}.

Definition set_book (s : state) (b : option Book) : state :=
  {| m_book := b; m_bookCheck := m_bookCheck s; response := response s |}.

Definition set_bookCheck (s : state) (bc : BookCheck) : state :=
  {| m_book := m_book s; m_bookCheck := bc; response := response s |}.

Definition put (s : state) (items : list item) : state :=
  {| m_book := m_book s; m_bookCheck := m_bookCheck s;
     response := response s ++ items |}.

(** [BookCommands::CmdBookOpen] *)
Definition CmdBookOpen (cmd : HtpCommand) (s : state) : state * status :=
  if negb (CheckNuArgLessEqual cmd 2) then (s, ArgFailure)
  else
    match Arg cmd 0 with
    | None => (s, ArgFailure)
    | Some fn =>
        match Book_new fn with
        | inl b => (set_book s (Some b), Done)
        | inr what =>
            (put s [Str "Error opening book: '"; Str what; Str quote_nl],
             Done)
        end
    end.

(** [BookCommands::CmdBookClose] *)
Definition CmdBookClose (cmd : HtpCommand) (s : state) : state * status :=
  if negb (CheckArgNone cmd) then (s, ArgFailure)
  else
    match m_book s with
    | None => (s, HtpFailure "No open book.")
    | Some _ => (set_book s None, Done)
    end.

(** [BookCommands::CmdBookParam] *)
Definition CmdBookParam (cmd : HtpCommand) (s : state) : state * status :=
  if (NuArg cmd =? 0)%nat then
    (put s [Chr nl;
            Str "[string] book_count_weight ";
            Flt (CountWeight (m_bookCheck s)); Chr nl;
            Str "[string] book_min_count ";
            Siz (MinCount (m_bookCheck s)); Chr nl],
     Done)
  else if (NuArg cmd =? 2)%nat then
    match Arg cmd 0 with
    | None => (s, ArgFailure)
    | Some name =>
        if (name =? "book_min_count")%string then
          match SizeTypeArg cmd 1 0 with
          | None => (s, ArgFailure)
          | Some n => (set_bookCheck s (SetMinCount (m_bookCheck s) n), Done)
          end
        else if (name =? "book_count_weight")%string then
          match FloatArg cmd 1 with
          | None => (s, ArgFailure)
          | Some w =>
              (set_bookCheck s (SetCountWeight (m_bookCheck s) w), Done)
          end
        else (s, Done)
    end
  else (s, HtpFailure "Expected 0 ore 2 arguments").

End Handlers.

Arguments Str {float} s.
Arguments Chr {float} c.
Arguments Flt {float} f.
Arguments Siz {float} n.
Arguments mkBookCheck {float} _ _.
Arguments MinCount {float} b.
Arguments CountWeight {float} b.
Arguments mkState {Book float} _ _ _.
Arguments m_book {Book float} s.
Arguments m_bookCheck {Book float} s.
Arguments response {Book float} s.
Arguments set_book {Book float} s b.
Arguments set_bookCheck {Book float} s bc.
Arguments put {Book float} s items.
Arguments SetMinCount {float} bc n.
Arguments SetCountWeight {float} bc w.
Arguments CmdBookOpen {Book float HtpCommand} _ _ _ cmd s.
Arguments CmdBookClose {Book float HtpCommand} _ cmd s.
Arguments CmdBookParam {Book float HtpCommand} _ _ _ _ cmd s.

(** A command as the list of its arguments, a book as the name of its file,
    for running the handlers. *)
Module Sample.

Definition HtpCommand : Type := list string.

Definition CheckArgNone (cmd : HtpCommand) : bool :=
  (List.length cmd =? 0)%nat.

Definition CheckNuArgLessEqual (cmd : HtpCommand) (n : nat) : bool :=
  (List.length cmd <=? n)%nat.

Definition NuArg (cmd : HtpCommand) : nat := List.length cmd.

Definition Arg (cmd : HtpCommand) (i : nat) : option string :=
  nth_error cmd i.

(** Numbers are written as strings of the digit [1]. *)
Definition SizeTypeArg (cmd : HtpCommand) (i : nat) (min : N) : option N :=
  match nth_error cmd i with
  | Some a => if (min <=? N.of_nat (String.length a))%N
              then Some (N.of_nat (String.length a)) else None
  | None => None
  end.

Definition FloatArg (cmd : HtpCommand) (i : nat) : option N :=
  SizeTypeArg cmd i 0.

(** A book opens unless its file name is empty. *)
Definition Book_new (fn : string) : string + string :=
  if (fn =? "")%string then inr "no file name" else inl fn.

Definition closed : state string N :=
  {| m_book := None;
     m_bookCheck := {| MinCount := 0; CountWeight := 1%N |};
     response := [] |}.

Definition opened : state string N :=
  {| m_book := Some "old.db";
     m_bookCheck := {| MinCount := 0; CountWeight := 1%N |};
     response := [] |}.

End Sample.

End BookCommands.

(** * Properties *)

(** ** Bitsets *)

Lemma BitsetToVector_In (size : nat) (b : bitset_t) (p : HexPoint) :
  In p (BitsetToVector size b) <-> In p (positions size) /\ test b p = true.
Proof. unfold BitsetToVector. apply filter_In. Qed.

Lemma positions_In (size : nat) (p : Z) :
  In p (positions size) <-> 0 <= p < Z.of_nat size.
Proof.
  unfold positions. rewrite in_map_iff. split.
  - intros [n [<- Hn]]. apply in_seq in Hn. lia.
  - intros Hp. exists (Z.to_nat p). split; [lia|]. apply in_seq. lia.
Qed.

Lemma test_band (a b : bitset_t) (p : Z) :
  test (band a b) p = test a p && test b p.
Proof. unfold test, band. apply Z.land_spec. Qed.

Lemma count_two (size : nat) (b : bitset_t) :
  count size b = 2%nat -> exists p q, BitsetToVector size b = [p; q].
Proof.
  unfold count. destruct (BitsetToVector size b) as [|p [|q [|r l]]];
    simpl; try discriminate.
  intros _. now exists p, q.
Qed.

Lemma any_band_false (size : nat) (occ carrier : bitset_t) :
  any size (band occ carrier) = false ->
  forall p, In p (BitsetToVector size carrier) -> test occ p = false.
Proof.
  unfold any. intros Hany p Hp.
  apply BitsetToVector_In in Hp. destruct Hp as [Hpos Hc].
  destruct (test occ p) eqn:Ho; [|reflexivity].
  assert (Hex : existsb (test (band occ carrier)) (positions size) = true).
  { apply existsb_exists. exists p. split; [assumption|].
    rewrite test_band, Ho, Hc. reflexivity. }
  congruence.
Qed.

Lemma any_band_true (size : nat) (occ carrier : bitset_t) (p : HexPoint) :
  In p (BitsetToVector size carrier) -> test occ p = true ->
  any size (band occ carrier) = true.
Proof.
  intros Hp Ho. apply BitsetToVector_In in Hp. destruct Hp as [Hpos Hc].
  unfold any. apply existsb_exists. exists p. split; [assumption|].
  rewrite test_band, Ho, Hc. reflexivity.
Qed.

(** ** [ValidEdgeBridge] *)

Section VCUtilFacts.

Variable BITSETSIZE : nat.
Variable isEdge : HexPoint -> bool.

(** The picking loop over a pair. *)
Lemma pick_edge_pair (a b endpoint edge : HexPoint) :
  pick_edge isEdge [0; 1]%nat [a; b] endpoint edge =
  if isEdge a then Returned true b a
  else if isEdge b then Returned true a b
  else Returned false endpoint edge.
Proof. reflexivity. Qed.

(** The paths through [ValidEdgeBridge], one equation per exit. *)
Lemma ValidEdgeBridge_wrong_count brd carrier endpoint edge :
  count BITSETSIZE carrier <> 2%nat ->
  ValidEdgeBridge BITSETSIZE isEdge brd carrier endpoint edge = Returned false endpoint edge.
Proof.
  intros H. unfold ValidEdgeBridge.
  apply Nat.eqb_neq in H. rewrite H. reflexivity.
Qed.

Lemma ValidEdgeBridge_pair brd carrier endpoint edge p q :
  BitsetToVector BITSETSIZE carrier = [p; q] ->
  ValidEdgeBridge BITSETSIZE isEdge brd carrier endpoint edge =
  if any BITSETSIZE (band (GetOccupied brd) carrier) then
    Returned false endpoint edge
  else if negb (Adjacent (Const brd) p q) then Returned false endpoint edge
  else if negb (length (common_nbs (Const brd) p q) =? 2)%nat
       then AssertionFailed
       else pick_edge isEdge [0; 1]%nat (common_nbs (Const brd) p q)
                      endpoint edge.
Proof.
  intros Hv. unfold ValidEdgeBridge, count. rewrite Hv. reflexivity.
Qed.

(** Every call is on one of the two paths above. *)
Lemma vector_cases carrier :
  count BITSETSIZE carrier <> 2%nat \/ exists p q, BitsetToVector BITSETSIZE carrier = [p; q].
Proof.
  destruct (Nat.eq_dec (count BITSETSIZE carrier) 2) as [H|H].
  - right. now apply count_two.
  - now left.
Qed.

Lemma length_two (l : list HexPoint) :
  (length l =? 2)%nat = true -> exists a b, l = [a; b].
Proof.
  destruct l as [|a [|b [|c l]]]; simpl; try discriminate.
  intros _. now exists a, b.
Qed.

(** The assertion [adj.size() == 2] is reached exactly by a carrier of two
    unoccupied adjacent cells, and it fails exactly when the double loop
    has pushed a number of cells other than two. *)
Lemma ValidEdgeBridge_assertion brd carrier endpoint edge :
  ValidEdgeBridge BITSETSIZE isEdge brd carrier endpoint edge = AssertionFailed <->
  exists p q,
    BitsetToVector BITSETSIZE carrier = [p; q] /\
    any BITSETSIZE (band (GetOccupied brd) carrier) = false /\
    Adjacent (Const brd) p q = true /\
    length (common_nbs (Const brd) p q) <> 2%nat.
Proof.
  split.
  - intros H. destruct (vector_cases carrier) as [Hc|[p [q Hv]]].
    + rewrite ValidEdgeBridge_wrong_count in H by assumption. discriminate.
    + exists p, q. rewrite (ValidEdgeBridge_pair _ _ _ _ _ _ Hv) in H.
      destruct (any BITSETSIZE _); [discriminate|].
      destruct (Adjacent (Const brd) p q); [|discriminate].
      cbn [negb] in H.
      destruct (length (common_nbs (Const brd) p q) =? 2)%nat eqn:Hl.
      * cbn [negb] in H. apply length_two in Hl. destruct Hl as [a [b Hl]].
        rewrite Hl, pick_edge_pair in H.
        destruct (isEdge a); [discriminate|].
        destruct (isEdge b); discriminate.
      * apply Nat.eqb_neq in Hl. auto.
  - intros [p [q [Hv [Hany [Hadj Hl]]]]].
    rewrite (ValidEdgeBridge_pair _ _ _ _ _ _ Hv), Hany, Hadj.
    apply Nat.eqb_neq in Hl. rewrite Hl. reflexivity.
Qed.

(** C1, as amended. [ValidEdgeBridge] returns true, writing the edge and
    the endpoint, only when the carrier has exactly two cells, neither is
    occupied, the two cells are adjacent, and the pair of their common
    neighbours holds at least one edge cell. The written edge is then an
    edge cell of the pair and the written endpoint is the other cell of the
    pair; the endpoint is a non-edge cell exactly when the pair holds one
    edge cell and one non-edge cell. *)
Theorem ValidEdgeBridge_true_only_when
        brd carrier endpoint0 edge0 endpoint edge :
  ValidEdgeBridge BITSETSIZE isEdge brd carrier endpoint0 edge0
    = Returned true endpoint edge ->
  exists p q a b,
    BitsetToVector BITSETSIZE carrier = [p; q] /\
    count BITSETSIZE carrier = 2%nat /\
    test (GetOccupied brd) p = false /\
    test (GetOccupied brd) q = false /\
    Adjacent (Const brd) p q = true /\
    common_nbs (Const brd) p q = [a; b] /\
    (isEdge a = true \/ isEdge b = true) /\
    isEdge edge = true /\
    ((edge = a /\ endpoint = b) \/ (edge = b /\ endpoint = a)) /\
    (isEdge endpoint = false <-> isEdge a <> isEdge b).
Proof.
  intros H. destruct (vector_cases carrier) as [Hc|[p [q Hv]]].
  { rewrite ValidEdgeBridge_wrong_count in H by assumption. discriminate. }
  rewrite (ValidEdgeBridge_pair _ _ _ _ _ _ Hv) in H.
  destruct (any BITSETSIZE _) eqn:Hany; [discriminate|].
  destruct (Adjacent (Const brd) p q) eqn:Hadj; [|discriminate].
  cbn [negb] in H.
  destruct (length (common_nbs (Const brd) p q) =? 2)%nat eqn:Hl;
    [|discriminate].
  cbn [negb] in H. apply length_two in Hl. destruct Hl as [a [b Hl]].
  rewrite Hl, pick_edge_pair in H.
  pose proof (any_band_false _ _ _ Hany) as Hfree.
  exists p, q, a, b.
  split; [assumption|]. split; [unfold count; now rewrite Hv|].
  split; [apply Hfree; rewrite Hv; simpl; auto|].
  split; [apply Hfree; rewrite Hv; simpl; auto|].
  split; [assumption|]. split; [assumption|].
  destruct (isEdge a) eqn:Ea.
  - injection H as <- <-. rewrite Ea.
    split; [now left|]. split; [reflexivity|]. split; [now left|].
    split.
    + intros Eb. rewrite Eb. discriminate.
    + intros Hne. destruct (isEdge b); [now elim Hne|reflexivity].
  - destruct (isEdge b) eqn:Eb; [|discriminate].
    injection H as <- <-. rewrite Ea, Eb.
    split; [now right|]. split; [reflexivity|]. split; [now right|].
    split; [discriminate|reflexivity].
Qed.

(** The converse of the theorem above: a carrier of two unoccupied adjacent
    cells whose common neighbours are a pair holding an edge cell makes
    [ValidEdgeBridge] return true, with the first edge cell of the pair as
    the edge and the other cell as the endpoint. *)
Lemma ValidEdgeBridge_true_when brd carrier endpoint0 edge0 p q a b :
  BitsetToVector BITSETSIZE carrier = [p; q] ->
  any BITSETSIZE (band (GetOccupied brd) carrier) = false ->
  Adjacent (Const brd) p q = true ->
  common_nbs (Const brd) p q = [a; b] ->
  isEdge a = true \/ isEdge b = true ->
  ValidEdgeBridge BITSETSIZE isEdge brd carrier endpoint0 edge0 =
  if isEdge a then Returned true b a else Returned true a b.
Proof.
  intros Hv Hany Hadj Hn He.
  rewrite (ValidEdgeBridge_pair _ _ _ _ _ _ Hv), Hany, Hadj, Hn.
  cbn [negb length Nat.eqb]. rewrite pick_edge_pair.
  destruct (isEdge a); [reflexivity|].
  destruct He as [He|He]; [discriminate|]. now rewrite He.
Qed.

(** C4. [ValidEdgeBridge] returns false (and leaves both outputs as they
    were) whenever the carrier's cardinality is not 2, or some cell of the
    carrier is occupied, or the two carrier cells are not adjacent, or the
    pair of their common neighbours holds no edge cell. *)
Theorem ValidEdgeBridge_false_when brd carrier endpoint edge :
  count BITSETSIZE carrier <> 2%nat \/
  (exists p, In p (BitsetToVector BITSETSIZE carrier) /\
             test (GetOccupied brd) p = true) \/
  (exists p q, BitsetToVector BITSETSIZE carrier = [p; q] /\
               Adjacent (Const brd) p q = false) \/
  (exists p q a b, BitsetToVector BITSETSIZE carrier = [p; q] /\
                   common_nbs (Const brd) p q = [a; b] /\
                   isEdge a = false /\ isEdge b = false) ->
  ValidEdgeBridge BITSETSIZE isEdge brd carrier endpoint edge
    = Returned false endpoint edge.
Proof.
  intros H. destruct (vector_cases carrier) as [Hc|[p [q Hv]]].
  { now apply ValidEdgeBridge_wrong_count. }
  rewrite (ValidEdgeBridge_pair _ _ _ _ _ _ Hv).
  destruct H as [Hc|[[x [Hx Hocc]]|[[p' [q' [Hv' Hadj]]]|
                                    [p' [q' [a [b [Hv' [Hn [Ea Eb]]]]]]]]]].
  - unfold count in Hc. rewrite Hv in Hc. now elim Hc.
  - rewrite (any_band_true _ _ _ _ Hx Hocc). reflexivity.
  - rewrite Hv in Hv'. injection Hv' as -> ->. rewrite Hadj.
    destruct (any BITSETSIZE _); reflexivity.
  - rewrite Hv in Hv'. injection Hv' as -> ->.
    rewrite Hn, pick_edge_pair, Ea, Eb.
    destruct (any BITSETSIZE _); [reflexivity|].
    destruct (Adjacent (Const brd) p' q'); reflexivity.
Qed.

(** C10. Whenever [ValidEdgeBridge] returns false, the output parameters
    [endpoint] and [edge] hold the values they had on entry. *)
Theorem ValidEdgeBridge_false_frame
        brd carrier endpoint0 edge0 endpoint edge :
  ValidEdgeBridge BITSETSIZE isEdge brd carrier endpoint0 edge0
    = Returned false endpoint edge ->
  endpoint = endpoint0 /\ edge = edge0.
Proof.
  unfold ValidEdgeBridge.
  repeat match goal with
         | |- context [if ?c then _ else _] => destruct c
         end;
    try (intros H; injection H as <- <-; now split);
    try discriminate.
  simpl. intros H.
  repeat match type of H with
         | context [if ?c then _ else _] => destruct c
         end;
    try discriminate.
  injection H as <- <-. now split.
Qed.

End VCUtilFacts.

(** ** [GetMustplay] *)

Section MustplayFacts.

Context {HexColor : Type}.
Variable opposite : HexColor -> HexColor.

(** C2, as amended. [GetMustplay] returns the empty carrier if and only
    if the opponent of [color] has a full connection or no empty cell of
    the board lies in the opponent's semi-connection intersection: the
    branch taken without a full connection produces the empty carrier
    too. *)
Theorem GetMustplay_empty_iff (brd : HexBoard HexColor) (color : HexColor) :
  GetMustplay opposite brd color = EMPTY_BITSET <->
  FullExists (Cons brd (opposite color)) = true \/
  band (GetEmpty (GetPosition brd))
       (SemiIntersection (Cons brd (opposite color))) = EMPTY_BITSET.
Proof.
  unfold GetMustplay.
  destruct (FullExists (Cons brd (opposite color))); split.
  - intros _. now left.
  - reflexivity.
  - intros H. now right.
  - intros [H|H]; [discriminate|assumption].
Qed.

(** C3. [GetMustplay] returns [EMPTY_BITSET] when the opponent of [color]
    has a full connection, and otherwise the intersection of the board's
    empty cells with the opponent's semi-connection intersection: a cell
    is in the result exactly when there is no full connection and the cell
    is in both sets. *)
Theorem GetMustplay_value (brd : HexBoard HexColor) (color : HexColor) :
  GetMustplay opposite brd color =
    (if FullExists (Cons brd (opposite color)) then EMPTY_BITSET
     else band (GetEmpty (GetPosition brd))
               (SemiIntersection (Cons brd (opposite color)))) /\
  forall p : HexPoint,
    test (GetMustplay opposite brd color) p =
    negb (FullExists (Cons brd (opposite color))) &&
    (test (GetEmpty (GetPosition brd)) p &&
     test (SemiIntersection (Cons brd (opposite color))) p).
Proof.
  split; [reflexivity|]. intros p. unfold GetMustplay.
  destruct (FullExists (Cons brd (opposite color))); cbn [negb andb].
  - unfold test, EMPTY_BITSET. apply Z.testbit_0_l.
  - apply test_band.
Qed.

End MustplayFacts.

(** ** [DfsData] *)

(** C7. A default-constructed record is not initialized, and a record is
    initialized if and only if its [bestmove] is not [INVALID_POINT]. *)
Theorem Initialized_iff (INVALID_POINT : HexPoint) :
  bestmove (DfsData_default INVALID_POINT) = INVALID_POINT /\
  Initialized INVALID_POINT (DfsData_default INVALID_POINT) = false /\
  forall r : DfsData,
    Initialized INVALID_POINT r = true <-> bestmove r <> INVALID_POINT.
Proof.
  unfold Initialized. split; [reflexivity|]. split.
  - cbn [DfsData_default bestmove]. rewrite Z.eqb_refl. reflexivity.
  - intros r. rewrite negb_true_iff. apply Z.eqb_neq.
Qed.

(** C8. [ReplaceWith] returns true for every stored record and every
    other record. *)
Theorem ReplaceWith_always (self other : DfsData) :
  ReplaceWith self other = true.
Proof. reflexivity. Qed.

(** *** Bytes and words *)

Lemma Z_of_byte_of_Z (z : Z) : Z_of_byte (byte_of_Z z) = z mod 256.
Proof.
  unfold Z_of_byte, byte_of_Z.
  pose proof (Z.mod_pos_bound z 256 ltac:(lia)) as Hb.
  destruct (Strings.Byte.of_N (Z.to_N (z mod 256))) as [b|] eqn:E.
  - apply Strings.Byte.to_of_N in E. rewrite E. lia.
  - apply Strings.Byte.of_N_None_iff in E. lia.
Qed.

Lemma BytesToWord_WordToBytes (n : nat) (x : Z) :
  BytesToWord (WordToBytes n x) = x mod 256 ^ Z.of_nat n.
Proof.
  revert x. induction n as [|n IH]; intros x.
  - cbn. now rewrite Z.mod_1_r.
  - cbn [WordToBytes BytesToWord fold_right].
    fold (BytesToWord (WordToBytes n (x / 256))).
    rewrite IH, Z_of_byte_of_Z.
    rewrite Nat2Z.inj_succ, Z.pow_succ_r by lia.
    rewrite Z.rem_mul_r by lia. reflexivity.
Qed.

Lemma to_int_wrap (x : Z) : int_range x -> to_int (x mod 2 ^ 32) = x.
Proof.
  unfold int_range, to_int.
  change (2 ^ 31) with 2147483648. change (2 ^ 32) with 4294967296.
  intros Hx. destruct (Z.ltb_spec (x mod 4294967296) 2147483648) as [H|H];
    Z.div_mod_to_equations; lia.
Qed.

Lemma word_roundtrip (x : Z) :
  int_range x -> to_int (BytesToWord (WordToBytes 4 x)) = x.
Proof.
  intros Hx. rewrite BytesToWord_WordToBytes. now apply to_int_wrap.
Qed.

Lemma Pack_length (r : DfsData) : length (Pack r) = 17%nat.
Proof. reflexivity. Qed.

Lemma Pack_layout (r : DfsData) :
  slice 0 1 (Pack r) = [byte_of_Z (if win r then 1 else 0)] /\
  slice 1 4 (Pack r) = WordToBytes 4 (flags r) /\
  slice 5 4 (Pack r) = WordToBytes 4 (numstates r) /\
  slice 9 4 (Pack r) = WordToBytes 4 (nummoves r) /\
  slice 13 4 (Pack r) = WordToBytes 4 (bestmove r).
Proof. repeat split. Qed.

(** C5. For every record with valid field values, unpacking the bytes
    produced by packing it yields the record again; the packed form has
    the length [PackedSize] announces. *)
Theorem Unpack_Pack (BITSETSIZE : nat) (r : DfsData) :
  valid_record BITSETSIZE r ->
  length (Pack r) = PackedSize r /\ Unpack BITSETSIZE (Pack r) = Some r.
Proof.
  intros (Hf & Hs & Hm & Hb & Hp). split; [reflexivity|].
  destruct (Pack_layout r) as (Lw & Lf & Ls & Lm & Lb).
  unfold Unpack. rewrite Pack_length, Lw, Lf, Ls, Lm, Lb.
  rewrite !word_roundtrip by assumption.
  rewrite Hp. cbn [Nat.eqb Nat.add negb].
  destruct r as [w f s m b]. cbn [win flags numstates nummoves bestmove].
  f_equal. f_equal. destruct w; reflexivity.
Qed.

(** C6. On a board whose 180-degree symmetry mapping is an involution,
    rotating a record twice gives the record back. *)
Theorem Rotate_Rotate (r : DfsData) (brd : ConstBoard) :
  (forall p : HexPoint, Rotate180 brd (Rotate180 brd p) = p) ->
  Rotate (Rotate r brd) brd = r.
Proof.
  intros Hinv. destruct r as [w f s m b]. unfold Rotate.
  cbn [win flags numstates nummoves bestmove]. now rewrite Hinv.
Qed.

(** ** The properties on the sample boards *)

Lemma rot_2x2_involutive (p : HexPoint) :
  Sample.rot_2x2 (Sample.rot_2x2 p) = p.
Proof.
  unfold Sample.rot_2x2.
  repeat match goal with
         | |- context [p =? ?k] =>
             destruct (Z.eqb_spec p k) as [->|?];
               [first [reflexivity | congruence]|]
         end.
  reflexivity.
Qed.

(** On the 2x1 board the cells a1 and b1 have the two edges NORTH and SOUTH
    as their common neighbours: [ValidEdgeBridge] returns true and the
    endpoint it writes is the edge SOUTH. *)
Lemma ValidEdgeBridge_endpoint_on_edge :
  ValidEdgeBridge Sample.BITSETSIZE Sample.isEdge Sample.board_2x1
                  (Sample.bitset_of [Sample.A1; Sample.B1])
                  Sample.INVALID_POINT Sample.INVALID_POINT
    = Returned true Sample.SOUTH Sample.NORTH /\
  common_nbs (Const Sample.board_2x1) Sample.A1 Sample.B1
    = [Sample.NORTH; Sample.SOUTH] /\
  Sample.isEdge Sample.NORTH = true /\
  Sample.isEdge Sample.SOUTH = true.
Proof. repeat split. Qed.

(** The bridge a1-b1 of the 2x2 board: edge NORTH, endpoint a2. *)
Lemma ValidEdgeBridge_true_only_when_sample :
  ValidEdgeBridge Sample.BITSETSIZE Sample.isEdge Sample.board_2x2
                  (Sample.bitset_of [Sample.A1; Sample.B1])
                  Sample.INVALID_POINT Sample.INVALID_POINT
    = Returned true Sample.A2 Sample.NORTH /\
  exists p q a b,
    BitsetToVector Sample.BITSETSIZE (Sample.bitset_of [Sample.A1; Sample.B1])
      = [p; q] /\
    count Sample.BITSETSIZE (Sample.bitset_of [Sample.A1; Sample.B1])
      = 2%nat /\
    test (GetOccupied Sample.board_2x2) p = false /\
    test (GetOccupied Sample.board_2x2) q = false /\
    Adjacent (Const Sample.board_2x2) p q = true /\
    common_nbs (Const Sample.board_2x2) p q = [a; b] /\
    (Sample.isEdge a = true \/ Sample.isEdge b = true) /\
    Sample.isEdge Sample.NORTH = true /\
    ((Sample.NORTH = a /\ Sample.A2 = b) \/
     (Sample.NORTH = b /\ Sample.A2 = a)) /\
    (Sample.isEdge Sample.A2 = false <-> Sample.isEdge a <> Sample.isEdge b).
Proof.
  split; [reflexivity|].
  apply (ValidEdgeBridge_true_only_when
           Sample.BITSETSIZE Sample.isEdge Sample.board_2x2
           (Sample.bitset_of [Sample.A1; Sample.B1])
           Sample.INVALID_POINT Sample.INVALID_POINT).
  reflexivity.
Defined.

(** The cells b1 and a2 of the 2x2 board are adjacent and empty, and their
    common neighbours a1 and b2 are both interior: no bridge. *)
Lemma ValidEdgeBridge_false_when_sample :
  (exists p q a b,
     BitsetToVector Sample.BITSETSIZE (Sample.bitset_of [Sample.B1; Sample.A2])
       = [p; q] /\
     common_nbs (Const Sample.board_2x2) p q = [a; b] /\
     Sample.isEdge a = false /\ Sample.isEdge b = false) /\
  ValidEdgeBridge Sample.BITSETSIZE Sample.isEdge Sample.board_2x2
                  (Sample.bitset_of [Sample.B1; Sample.A2]) 1 2
    = Returned false 1 2.
Proof.
  assert (H : exists p q a b,
     BitsetToVector Sample.BITSETSIZE (Sample.bitset_of [Sample.B1; Sample.A2])
       = [p; q] /\
     common_nbs (Const Sample.board_2x2) p q = [a; b] /\
     Sample.isEdge a = false /\ Sample.isEdge b = false).
  { exists Sample.B1, Sample.A2, Sample.A1, Sample.B2. repeat split. }
  split; [exact H|].
  apply (ValidEdgeBridge_false_when
           Sample.BITSETSIZE Sample.isEdge Sample.board_2x2
           (Sample.bitset_of [Sample.B1; Sample.A2]) 1 2).
  right. right. right. exact H.
Defined.

Lemma ValidEdgeBridge_false_frame_sample :
  ValidEdgeBridge Sample.BITSETSIZE Sample.isEdge Sample.board_2x2
                  (Sample.bitset_of [Sample.B1; Sample.A2]) 1 2
    = Returned false 1 2 /\
  (1 = 1 /\ 2 = 2).
Proof.
  split; [reflexivity|].
  apply (ValidEdgeBridge_false_frame
           Sample.BITSETSIZE Sample.isEdge Sample.board_2x2
           (Sample.bitset_of [Sample.B1; Sample.A2]) 1 2 1 2).
  reflexivity.
Defined.

(** On the full 2x2 board White has no full connection, and the mustplay
    of Black is empty all the same. *)
Lemma GetMustplay_empty_without_full :
  GetMustplay Sample.opposite Sample.hexboard_2x2_full Sample.BLACK
    = EMPTY_BITSET /\
  FullExists (Cons Sample.hexboard_2x2_full (Sample.opposite Sample.BLACK))
    = false.
Proof. split; reflexivity. Qed.

Lemma Unpack_Pack_sample :
  valid_record Sample.BITSETSIZE Sample.record /\
  length (Pack Sample.record) = PackedSize Sample.record /\
  Unpack Sample.BITSETSIZE (Pack Sample.record) = Some Sample.record.
Proof.
  assert (H : valid_record Sample.BITSETSIZE Sample.record).
  { unfold valid_record, int_range.
    repeat split; try reflexivity; vm_compute; discriminate. }
  split; [exact H|].
  apply (Unpack_Pack Sample.BITSETSIZE Sample.record H).
Defined.

Lemma Rotate_Rotate_sample :
  (forall p : HexPoint,
     Rotate180 (Const Sample.board_2x2)
               (Rotate180 (Const Sample.board_2x2) p) = p) /\
  Rotate (Rotate Sample.record (Const Sample.board_2x2))
         (Const Sample.board_2x2) = Sample.record.
Proof.
  split; [exact rot_2x2_involutive|].
  apply (Rotate_Rotate Sample.record (Const Sample.board_2x2)).
  exact rot_2x2_involutive.
Defined.

(** * Further properties of [VCUtil] *)


(** ** The double loop of [ValidEdgeBridge] *)

(** A cell is pushed onto [adj] exactly when it is listed as a neighbour of
    both cells. *)
Lemma common_nbs_In (cb : ConstBoard) (m0 m1 x : HexPoint) :
  In x (common_nbs cb m0 m1) <-> In x (Nbs cb m0) /\ In x (Nbs cb m1).
Proof.
  unfold common_nbs. rewrite in_flat_map. split.
  - intros [n1 [H0 H]]. apply in_flat_map in H. destruct H as [n2 [H1 H]].
    destruct (Z.eqb_spec n1 n2) as [<-|]; [|contradiction].
    destruct H as [<-|[]]. now split.
  - intros [H0 H1]. exists x. split; [assumption|].
    apply in_flat_map. exists x. split; [assumption|].
    rewrite Z.eqb_refl. now left.
Qed.

(** The inner loop pushes [n1] once for every occurrence of [n1] in the
    second list. *)
Lemma inner_loop_count (n1 x : HexPoint) (l : list HexPoint) :
  count_occ Z.eq_dec
            (flat_map (fun n2 => if n1 =? n2 then [n1] else []) l) x =
  if Z.eq_dec n1 x then count_occ Z.eq_dec l x else 0%nat.
Proof.
  unfold HexPoint in *. induction l as [|n2 l IH].
  - cbn. now destruct (Z.eq_dec n1 x).
  - change (flat_map (fun n2 => if n1 =? n2 then [n1] else []) (n2 :: l))
      with ((if n1 =? n2 then [n1] else [])
              ++ flat_map (fun n2 => if n1 =? n2 then [n1] else []) l).
    rewrite count_occ_app, IH.
    destruct (Z.eqb_spec n1 n2) as [<-|Hne]; destruct (Z.eq_dec n1 x) as [E|E].
    + rewrite count_occ_cons_eq by assumption.
      cbn. destruct (Z.eq_dec n1 x); [reflexivity|contradiction].
    + cbn. destruct (Z.eq_dec n1 x); [contradiction|reflexivity].
    + rewrite count_occ_cons_neq by congruence. reflexivity.
    + reflexivity.
Qed.

(** The number of times a cell is pushed onto [adj] is the product of the
    numbers of times the two neighbour lists hold it. *)
Lemma common_nbs_count_occ (cb : ConstBoard) (m0 m1 x : HexPoint) :
  count_occ Z.eq_dec (common_nbs cb m0 m1) x =
  (count_occ Z.eq_dec (Nbs cb m0) x * count_occ Z.eq_dec (Nbs cb m1) x)%nat.
Proof.
  unfold common_nbs, HexPoint in *. induction (Nbs cb m0) as [|n1 l IH].
  - reflexivity.
  - match goal with
    | |- context [flat_map ?f (n1 :: l)] =>
        change (flat_map f (n1 :: l)) with (f n1 ++ flat_map f l)
    end.
    cbv beta. rewrite count_occ_app, IH, inner_loop_count.
    destruct (Z.eq_dec n1 x) as [E|E].
    + rewrite count_occ_cons_eq by assumption. rewrite Nat.mul_succ_l.
      apply Nat.add_comm.
    + rewrite count_occ_cons_neq by assumption. reflexivity.
Qed.

(** Over duplicate-free neighbour lists no cell is pushed twice. *)
Lemma common_nbs_NoDup (cb : ConstBoard) (m0 m1 : HexPoint) :
  NoDup (Nbs cb m0) -> NoDup (Nbs cb m1) -> NoDup (common_nbs cb m0 m1).
Proof.
  intros H0 H1. apply (NoDup_count_occ Z.eq_dec). intros x.
  rewrite common_nbs_count_occ.
  apply (NoDup_count_occ Z.eq_dec) with (x := x) in H0.
  apply (NoDup_count_occ Z.eq_dec) with (x := x) in H1. nia.
Qed.

(** Visiting the two cells in the other order pushes the same cells the
    same number of times: the length [adj.size()] that the assertion tests
    does not depend on which carrier cell comes first. *)
Theorem common_nbs_swap (cb : ConstBoard) (m0 m1 : HexPoint) :
  Permutation (common_nbs cb m0 m1) (common_nbs cb m1 m0) /\
  length (common_nbs cb m0 m1) = length (common_nbs cb m1 m0).
Proof.
  assert (P : Permutation (common_nbs cb m0 m1) (common_nbs cb m1 m0)).
  { apply (Permutation_count_occ Z.eq_dec). intros x.
    rewrite !common_nbs_count_occ. lia. }
  split; [exact P|]. now apply Permutation_length.
Qed.

(** [adj] holds exactly the cells listed as neighbours of both carrier
    cells, each as many times as the product of its numbers of occurrences
    in the two neighbour lists. *)
Theorem common_nbs_exact (cb : ConstBoard) (m0 m1 x : HexPoint) :
  (In x (common_nbs cb m0 m1) <-> In x (Nbs cb m0) /\ In x (Nbs cb m1)) /\
  count_occ Z.eq_dec (common_nbs cb m0 m1) x =
  (count_occ Z.eq_dec (Nbs cb m0) x * count_occ Z.eq_dec (Nbs cb m1) x)%nat.
Proof. split; [apply common_nbs_In|apply common_nbs_count_occ]. Qed.

(** ** More on [ValidEdgeBridge] *)

Section ValidEdgeBridgeMore.

Variable BITSETSIZE : nat.
Variable isEdge : HexPoint -> bool.

(** What a call that returns true has gone through. *)
Lemma ValidEdgeBridge_true_inv brd carrier endpoint0 edge0 endpoint edge :
  ValidEdgeBridge BITSETSIZE isEdge brd carrier endpoint0 edge0
    = Returned true endpoint edge ->
  exists p q a b,
    BitsetToVector BITSETSIZE carrier = [p; q] /\
    common_nbs (Const brd) p q = [a; b] /\
    ((edge = a /\ endpoint = b) \/ (edge = b /\ endpoint = a)).
Proof.
  intros H. destruct (vector_cases BITSETSIZE carrier) as [Hc|[p [q Hv]]].
  { rewrite ValidEdgeBridge_wrong_count in H by assumption. discriminate. }
  rewrite (ValidEdgeBridge_pair _ _ _ _ _ _ _ _ Hv) in H.
  destruct (any BITSETSIZE _); [discriminate|].
  destruct (Adjacent (Const brd) p q); [|discriminate]. cbn [negb] in H.
  destruct (length (common_nbs (Const brd) p q) =? 2)%nat eqn:Hl;
    [|discriminate].
  cbn [negb] in H. apply length_two in Hl. destruct Hl as [a [b Hl]].
  rewrite Hl, pick_edge_pair in H. exists p, q, a, b.
  split; [assumption|]. split; [assumption|].
  destruct (isEdge a).
  - injection H as <- <-. now left.
  - destruct (isEdge b); [|discriminate]. injection H as <- <-. now right.
Qed.

(** Whenever [ValidEdgeBridge] returns true, the edge and the endpoint it
    writes are both listed as neighbours of both cells of the carrier. *)
Theorem ValidEdgeBridge_true_neighbours
        brd carrier endpoint0 edge0 endpoint edge :
  ValidEdgeBridge BITSETSIZE isEdge brd carrier endpoint0 edge0
    = Returned true endpoint edge ->
  exists p q,
    BitsetToVector BITSETSIZE carrier = [p; q] /\
    In edge (Nbs (Const brd) p) /\ In edge (Nbs (Const brd) q) /\
    In endpoint (Nbs (Const brd) p) /\ In endpoint (Nbs (Const brd) q).
Proof.
  intros H. apply ValidEdgeBridge_true_inv in H.
  destruct H as (p & q & a & b & Hv & Hn & Hab).
  assert (Ha : In a (common_nbs (Const brd) p q)) by (rewrite Hn; simpl; auto).
  assert (Hb : In b (common_nbs (Const brd) p q)) by (rewrite Hn; simpl; auto).
  apply common_nbs_In in Ha. apply common_nbs_In in Hb.
  exists p, q. split; [assumption|].
  destruct Hab as [[-> ->]|[-> ->]]; tauto.
Qed.

(** On a board whose neighbour lists hold no cell twice, the edge and the
    endpoint written by a call that returns true are different cells. *)
Theorem ValidEdgeBridge_true_distinct
        brd carrier endpoint0 edge0 endpoint edge :
  (forall x, NoDup (Nbs (Const brd) x)) ->
  ValidEdgeBridge BITSETSIZE isEdge brd carrier endpoint0 edge0
    = Returned true endpoint edge ->
  edge <> endpoint.
Proof.
  intros Hnd H. apply ValidEdgeBridge_true_inv in H.
  destruct H as (p & q & a & b & Hv & Hn & Hab).
  pose proof (common_nbs_NoDup (Const brd) p q (Hnd p) (Hnd q)) as N.
  rewrite Hn in N. inversion N as [|? ? Hnotin _]; subst.
  assert (a <> b) by (intros ->; apply Hnotin; now left).
  destruct Hab as [[-> ->]|[-> ->]]; congruence.
Qed.

(** [ValidEdgeBridge] never reads its two output parameters: whether it
    stops at the assertion, returns false or returns true, and the values
    it writes when it returns true, are the same for all entry values; a
    call that returns false hands back the entry values it was given. *)
Theorem ValidEdgeBridge_entry_values brd carrier e1 d1 e2 d2 :
  match ValidEdgeBridge BITSETSIZE isEdge brd carrier e1 d1,
        ValidEdgeBridge BITSETSIZE isEdge brd carrier e2 d2 with
  | AssertionFailed, AssertionFailed => True
  | Returned true ep ed, Returned true ep' ed' => ep = ep' /\ ed = ed'
  | Returned false ep ed, Returned false ep' ed' =>
      ep = e1 /\ ed = d1 /\ ep' = e2 /\ ed' = d2
  | _, _ => False
  end.
Proof.
  destruct (vector_cases BITSETSIZE carrier) as [Hc|[p [q Hv]]].
  { rewrite !ValidEdgeBridge_wrong_count by assumption. auto. }
  rewrite !(ValidEdgeBridge_pair _ _ _ _ _ _ _ _ Hv).
  destruct (any BITSETSIZE _); [auto|].
  destruct (Adjacent (Const brd) p q); cbn [negb]; [|auto].
  destruct (length (common_nbs (Const brd) p q) =? 2)%nat eqn:Hl;
    cbn [negb]; [|exact I].
  apply length_two in Hl. destruct Hl as [a [b Hl]].
  rewrite Hl, !pick_edge_pair.
  destruct (isEdge a); [auto|]. destruct (isEdge b); auto.
Qed.

End ValidEdgeBridgeMore.

(** ** More on [GetMustplay] *)

Lemma filter_length_le (f g : Z -> bool) (l : list Z) :
  (forall x, f x = true -> g x = true) ->
  (length (filter f l) <= length (filter g l))%nat.
Proof.
  intros Hfg. induction l as [|x l IH]; cbn [filter]; [apply Nat.le_refl|].
  destruct (f x) eqn:Ef.
  - rewrite (Hfg x Ef). cbn [length]. lia.
  - destruct (g x); cbn [length]; lia.
Qed.

Section MustplayMore.

Context {HexColor : Type}.
Variable opposite : HexColor -> HexColor.
Variable BITSETSIZE : nat.

(** A cell of the mustplay is an empty cell that lies in the opponent's
    semi-connection intersection. *)
Lemma GetMustplay_test (brd : HexBoard HexColor) (color : HexColor) p :
  test (GetMustplay opposite brd color) p = true ->
  test (GetEmpty (GetPosition brd)) p = true /\
  test (SemiIntersection (Cons brd (opposite color))) p = true.
Proof.
  unfold GetMustplay. destruct (FullExists (Cons brd (opposite color))).
  - unfold test, EMPTY_BITSET. rewrite Z.testbit_0_l. discriminate.
  - rewrite test_band. apply andb_true_iff.
Qed.

(** The mustplay never has more cells than the board has empty cells, nor
    more than the opponent's semi-connection intersection has. *)
Theorem GetMustplay_count_le (brd : HexBoard HexColor) (color : HexColor) :
  (count BITSETSIZE (GetMustplay opposite brd color)
   <= count BITSETSIZE (GetEmpty (GetPosition brd)))%nat /\
  (count BITSETSIZE (GetMustplay opposite brd color)
   <= count BITSETSIZE (SemiIntersection (Cons brd (opposite color))))%nat.
Proof.
  unfold count, BitsetToVector.
  split; apply filter_length_le; intros x Hx;
    apply GetMustplay_test in Hx; tauto.
Qed.

(** On a position whose occupied and empty cells are disjoint, no cell of
    the mustplay is occupied: the test [(GetOccupied() & carrier).any()]
    of [ValidEdgeBridge] never rejects a mustplay. *)
Theorem GetMustplay_unoccupied (brd : HexBoard HexColor) (color : HexColor) :
  band (GetOccupied (GetPosition brd)) (GetEmpty (GetPosition brd))
    = EMPTY_BITSET ->
  any BITSETSIZE (band (GetOccupied (GetPosition brd))
                       (GetMustplay opposite brd color)) = false.
Proof.
  intros Hdisj. unfold any.
  destruct (existsb _ _) eqn:E; [|reflexivity].
  apply existsb_exists in E. destruct E as [x [_ Hx]].
  rewrite test_band in Hx. apply andb_true_iff in Hx. destruct Hx as [Ho Hm].
  apply GetMustplay_test in Hm. destruct Hm as [He _].
  assert (Hb : test (band (GetOccupied (GetPosition brd))
                          (GetEmpty (GetPosition brd))) x = true)
    by (rewrite test_band, Ho, He; reflexivity).
  rewrite Hdisj in Hb. unfold test, EMPTY_BITSET in Hb.
  rewrite Z.testbit_0_l in Hb. discriminate.
Qed.

End MustplayMore.

(** ** More on [DfsData] *)

(** An initialized record is never the record the default constructor
    builds. *)
Theorem Initialized_not_default (INVALID_POINT : HexPoint) (r : DfsData) :
  Initialized INVALID_POINT r = true -> r <> DfsData_default INVALID_POINT.
Proof.
  unfold Initialized. intros H ->. cbn [DfsData_default bestmove] in H.
  rewrite Z.eqb_refl in H. discriminate.
Qed.

(** The converse fails: a record constructed with [INVALID_POINT] as its
    best move is not initialized, although it differs from the
    default-constructed record as soon as one of the other arguments is not
    the default one. *)
Theorem uninitialized_not_default
        (INVALID_POINT : HexPoint) (w : bool) (nstates nmoves : Z) :
  w = true \/ nstates <> 0 \/ nmoves <> 0 ->
  Initialized INVALID_POINT
              (DfsData_init w nstates nmoves INVALID_POINT) = false /\
  DfsData_init w nstates nmoves INVALID_POINT
    <> DfsData_default INVALID_POINT.
Proof.
  intros H. split.
  - unfold Initialized. cbn [DfsData_init bestmove].
    rewrite Z.eqb_refl. reflexivity.
  - unfold DfsData_init, DfsData_default. intros E.
    injection E as Ew En Em. destruct H as [H|[H|H]]; congruence.
Qed.

(** * Properties of the book commands *)

Module BookCommandsFacts.

Import Ascii String BookCommands.
Local Open Scope string_scope.

Section Handlers.

Variable Book : Type.
Variable float : Type.
Variable HtpCommand : Type.
Variable CheckArgNone : HtpCommand -> bool.
Variable CheckNuArgLessEqual : HtpCommand -> nat -> bool.
Variable NuArg : HtpCommand -> nat.
Variable Arg : HtpCommand -> nat -> option string.
Variable FloatArg : HtpCommand -> nat -> option float.
Variable SizeTypeArg : HtpCommand -> nat -> N -> option N.
Variable Book_new : string -> Book + string.

Implicit Types (cmd : HtpCommand) (s : state Book float).

(** Once its argument check has passed, [book-close] leaves no book open,
    whether it succeeds or not; it succeeds exactly when a book was open,
    throws "No open book." exactly when none was, and touches neither the
    book parameters nor the response. *)
Theorem CmdBookClose_closes cmd s :
  CheckArgNone cmd = true ->
  m_book (fst (CmdBookClose CheckArgNone cmd s)) = None /\
  m_bookCheck (fst (CmdBookClose CheckArgNone cmd s)) = m_bookCheck s /\
  response (fst (CmdBookClose CheckArgNone cmd s)) = response s /\
  (snd (CmdBookClose CheckArgNone cmd s) = Done <-> m_book s <> None) /\
  (snd (CmdBookClose CheckArgNone cmd s) = HtpFailure "No open book."
   <-> m_book s = None).
Proof.
  intros Hc. unfold CmdBookClose. rewrite Hc. cbn [negb].
  destruct (m_book s) as [b|] eqn:Eb; cbn [fst snd set_book m_book
                                            m_bookCheck response].
  - repeat split; try discriminate; try reflexivity.
  - repeat split; try discriminate; try reflexivity; try assumption.
    intros H. now elim H.
Qed.

(** A [book-close] that succeeded cannot be repeated: the same command on
    the state it left throws "No open book." and changes nothing. *)
Theorem CmdBookClose_twice cmd s :
  snd (CmdBookClose CheckArgNone cmd s) = Done ->
  CmdBookClose CheckArgNone cmd (fst (CmdBookClose CheckArgNone cmd s)) =
  (fst (CmdBookClose CheckArgNone cmd s), HtpFailure "No open book.").
Proof.
  unfold CmdBookClose.
  destruct (CheckArgNone cmd) eqn:Hc; cbn [negb]; [|discriminate].
  destruct (m_book s); cbn [fst snd]; [|discriminate].
  intros _. reflexivity.
Qed.

(** When the constructor of [Book] throws, [book-open] still ends without
    a failure: the error text goes to the response and the book that was
    open before stays open. *)
Theorem CmdBookOpen_failed cmd s fn what :
  CheckNuArgLessEqual cmd 2 = true ->
  Arg cmd 0 = Some fn ->
  Book_new fn = inr what ->
  snd (CmdBookOpen CheckNuArgLessEqual Arg Book_new cmd s) = Done /\
  m_book (fst (CmdBookOpen CheckNuArgLessEqual Arg Book_new cmd s))
    = m_book s /\
  response (fst (CmdBookOpen CheckNuArgLessEqual Arg Book_new cmd s))
    = (response s
         ++ [Str "Error opening book: '"; Str what; Str quote_nl])%list.
Proof.
  intros Hc Ha Hb. unfold CmdBookOpen. rewrite Hc, Ha, Hb.
  repeat split.
Qed.

(** A successful [book-open] followed by a [book-close] leaves the state
    as it was but for the book, which is closed, whatever was open before
    the two commands. *)
Theorem CmdBookOpen_then_close cmd cmd' s fn b :
  CheckNuArgLessEqual cmd 2 = true ->
  Arg cmd 0 = Some fn ->
  Book_new fn = inl b ->
  CheckArgNone cmd' = true ->
  CmdBookClose CheckArgNone cmd'
    (fst (CmdBookOpen CheckNuArgLessEqual Arg Book_new cmd s)) =
  (set_book s None, Done).
Proof.
  intros Hc Ha Hb Hn. unfold CmdBookOpen, CmdBookClose.
  rewrite Hc, Ha, Hb, Hn. reflexivity.
Qed.

(** [param_book] throws its own failure exactly when the number of
    arguments is neither 0 nor 2, and the book is never touched. *)
Theorem CmdBookParam_failure cmd s msg :
  (snd (CmdBookParam NuArg Arg FloatArg SizeTypeArg cmd s) = HtpFailure msg
   <-> NuArg cmd <> 0%nat /\ NuArg cmd <> 2%nat /\
       msg = "Expected 0 ore 2 arguments") /\
  m_book (fst (CmdBookParam NuArg Arg FloatArg SizeTypeArg cmd s))
    = m_book s.
Proof.
  unfold CmdBookParam.
  destruct (Nat.eqb_spec (NuArg cmd) 0) as [E0|E0].
  { split; [|reflexivity]. split; [discriminate|]. intros [H _]. now elim H. }
  destruct (Nat.eqb_spec (NuArg cmd) 2) as [E2|E2].
  - destruct (Arg cmd 0) as [name|].
    + destruct (name =? "book_min_count").
      * destruct (SizeTypeArg cmd 1 0); (split; [|reflexivity]);
          (split; [discriminate|]); intros (_ & H & _); now elim H.
      * destruct (name =? "book_count_weight").
        -- destruct (FloatArg cmd 1); (split; [|reflexivity]);
             (split; [discriminate|]); intros (_ & H & _); now elim H.
        -- split; [|reflexivity]. split; [discriminate|].
           intros (_ & H & _). now elim H.
    + split; [|reflexivity]. split; [discriminate|].
      intros (_ & H & _). now elim H.
  - split; [|reflexivity]. cbn [snd]. split.
    + intros H. injection H as <-. auto.
    + intros (_ & _ & ->). reflexivity.
Qed.

(** [param_book] changes the book parameters only for two arguments of
    which the first is one of the two parameter names, and it then ends
    without a failure; any other name is accepted and ignored. *)
Theorem CmdBookParam_frame cmd s :
  m_bookCheck (fst (CmdBookParam NuArg Arg FloatArg SizeTypeArg cmd s))
    <> m_bookCheck s ->
  NuArg cmd = 2%nat /\
  (Arg cmd 0 = Some "book_min_count" \/
   Arg cmd 0 = Some "book_count_weight") /\
  snd (CmdBookParam NuArg Arg FloatArg SizeTypeArg cmd s) = Done.
Proof.
  unfold CmdBookParam.
  destruct (Nat.eqb_spec (NuArg cmd) 0) as [E0|E0].
  { cbn. intros H. now elim H. }
  destruct (Nat.eqb_spec (NuArg cmd) 2) as [E2|E2].
  2:{ cbn. intros H. now elim H. }
  destruct (Arg cmd 0) as [name|]; [|cbn; intros H; now elim H].
  destruct (String.eqb_spec name "book_min_count") as [->|N1].
  - destruct (SizeTypeArg cmd 1 0); cbn; intros H; [auto|now elim H].
  - destruct (String.eqb_spec name "book_count_weight") as [->|N2].
    + destruct (FloatArg cmd 1); cbn; intros H; [auto|now elim H].
    + cbn. intros H. now elim H.
Qed.

(** Setting [book_min_count] and then asking for the parameters shows the
    count just set and the count weight as it was. *)
Theorem CmdBookParam_set_then_show cmd cmd0 s n :
  NuArg cmd = 2%nat ->
  Arg cmd 0 = Some "book_min_count" ->
  SizeTypeArg cmd 1 0 = Some n ->
  NuArg cmd0 = 0%nat ->
  snd (CmdBookParam NuArg Arg FloatArg SizeTypeArg cmd s) = Done /\
  response
    (fst (CmdBookParam NuArg Arg FloatArg SizeTypeArg cmd0
            (fst (CmdBookParam NuArg Arg FloatArg SizeTypeArg cmd s)))) =
  (response s
     ++ [Chr nl;
         Str "[string] book_count_weight ";
         Flt (CountWeight (m_bookCheck s)); Chr nl;
         Str "[string] book_min_count ";
         Siz n; Chr nl])%list.
Proof.
  intros H2 Ha Hn H0. unfold CmdBookParam.
  rewrite H2, Ha, Hn, H0. split; reflexivity.
Qed.

End Handlers.

End BookCommandsFacts.

(** * The further properties on the samples *)

Lemma nbs_2x2_NoDup (x : HexPoint) : NoDup (Sample.nbs_2x2 x).
Proof.
  unfold Sample.nbs_2x2.
  repeat match goal with
         | |- context [x =? ?k] => destruct (x =? k)
         end;
    repeat (constructor; [cbv; intuition discriminate|]); constructor.
Qed.

Lemma ValidEdgeBridge_true_when_sample :
  (BitsetToVector Sample.BITSETSIZE (Sample.bitset_of [Sample.A1; Sample.B1])
     = [Sample.A1; Sample.B1] /\
   any Sample.BITSETSIZE
       (band (GetOccupied Sample.board_2x2)
             (Sample.bitset_of [Sample.A1; Sample.B1])) = false /\
   Adjacent (Const Sample.board_2x2) Sample.A1 Sample.B1 = true /\
   common_nbs (Const Sample.board_2x2) Sample.A1 Sample.B1
     = [Sample.NORTH; Sample.A2] /\
   (Sample.isEdge Sample.NORTH = true \/ Sample.isEdge Sample.A2 = true)) /\
  ValidEdgeBridge Sample.BITSETSIZE Sample.isEdge Sample.board_2x2
                  (Sample.bitset_of [Sample.A1; Sample.B1]) 1 2 =
  (if Sample.isEdge Sample.NORTH
   then Returned true Sample.A2 Sample.NORTH
   else Returned true Sample.NORTH Sample.A2).
Proof.
  split.
  - repeat split. now left.
  - apply (ValidEdgeBridge_true_when
             Sample.BITSETSIZE Sample.isEdge Sample.board_2x2
             (Sample.bitset_of [Sample.A1; Sample.B1]) 1 2
             Sample.A1 Sample.B1 Sample.NORTH Sample.A2);
      try reflexivity.
    now left.
Defined.

Lemma ValidEdgeBridge_true_neighbours_sample :
  ValidEdgeBridge Sample.BITSETSIZE Sample.isEdge Sample.board_2x1
                  (Sample.bitset_of [Sample.A1; Sample.B1]) 1 2
    = Returned true Sample.SOUTH Sample.NORTH /\
  exists p q,
    BitsetToVector Sample.BITSETSIZE (Sample.bitset_of [Sample.A1; Sample.B1])
      = [p; q] /\
    In Sample.NORTH (Nbs (Const Sample.board_2x1) p) /\
    In Sample.NORTH (Nbs (Const Sample.board_2x1) q) /\
    In Sample.SOUTH (Nbs (Const Sample.board_2x1) p) /\
    In Sample.SOUTH (Nbs (Const Sample.board_2x1) q).
Proof.
  split; [reflexivity|].
  apply (ValidEdgeBridge_true_neighbours
           Sample.BITSETSIZE Sample.isEdge Sample.board_2x1
           (Sample.bitset_of [Sample.A1; Sample.B1]) 1 2).
  reflexivity.
Defined.

Lemma ValidEdgeBridge_true_distinct_sample :
  (forall x, NoDup (Nbs (Const Sample.board_2x2) x)) /\
  ValidEdgeBridge Sample.BITSETSIZE Sample.isEdge Sample.board_2x2
                  (Sample.bitset_of [Sample.A1; Sample.B1]) 1 2
    = Returned true Sample.A2 Sample.NORTH /\
  Sample.NORTH <> Sample.A2.
Proof.
  split; [exact nbs_2x2_NoDup|]. split; [reflexivity|].
  apply (ValidEdgeBridge_true_distinct
           Sample.BITSETSIZE Sample.isEdge Sample.board_2x2
           (Sample.bitset_of [Sample.A1; Sample.B1]) 1 2
           Sample.A2 Sample.NORTH nbs_2x2_NoDup).
  reflexivity.
Defined.

Lemma GetMustplay_unoccupied_sample :
  band (GetOccupied (GetPosition SampleMustplay.hexboard_2x2))
       (GetEmpty (GetPosition SampleMustplay.hexboard_2x2)) = EMPTY_BITSET /\
  GetMustplay Sample.opposite SampleMustplay.hexboard_2x2 Sample.BLACK
    = Sample.bitset_of [Sample.A1; Sample.B1] /\
  any Sample.BITSETSIZE
      (band (GetOccupied (GetPosition SampleMustplay.hexboard_2x2))
            (GetMustplay Sample.opposite SampleMustplay.hexboard_2x2
                         Sample.BLACK)) = false.
Proof.
  split; [reflexivity|]. split; [reflexivity|].
  apply (GetMustplay_unoccupied Sample.opposite Sample.BITSETSIZE
                                SampleMustplay.hexboard_2x2 Sample.BLACK).
  reflexivity.
Defined.

Lemma Initialized_not_default_sample :
  Initialized Sample.INVALID_POINT Sample.record = true /\
  Sample.record <> DfsData_default Sample.INVALID_POINT.
Proof.
  split; [reflexivity|].
  apply (Initialized_not_default Sample.INVALID_POINT Sample.record).
  reflexivity.
Defined.

Lemma uninitialized_not_default_sample :
  (true = true \/ 5 <> 0 \/ 2 <> 0) /\
  Initialized Sample.INVALID_POINT
              (DfsData_init true 5 2 Sample.INVALID_POINT) = false /\
  DfsData_init true 5 2 Sample.INVALID_POINT
    <> DfsData_default Sample.INVALID_POINT.
Proof.
  split; [now left|].
  apply (uninitialized_not_default Sample.INVALID_POINT true 5 2).
  now left.
Defined.

Module BookCommandsSamples.

Import Ascii String BookCommands BookCommandsFacts.
Local Open Scope string_scope.

Lemma CmdBookClose_closes_sample :
  Sample.CheckArgNone [] = true /\
  m_book (fst (CmdBookClose Sample.CheckArgNone [] Sample.opened)) = None /\
  m_bookCheck (fst (CmdBookClose Sample.CheckArgNone [] Sample.opened))
    = m_bookCheck Sample.opened /\
  response (fst (CmdBookClose Sample.CheckArgNone [] Sample.opened))
    = response Sample.opened /\
  (snd (CmdBookClose Sample.CheckArgNone [] Sample.opened) = Done
   <-> m_book Sample.opened <> None) /\
  (snd (CmdBookClose Sample.CheckArgNone [] Sample.opened)
     = HtpFailure "No open book."
   <-> m_book Sample.opened = None).
Proof.
  split; [reflexivity|].
  apply (CmdBookClose_closes string N Sample.HtpCommand Sample.CheckArgNone
                             [] Sample.opened).
  reflexivity.
Defined.

Lemma CmdBookClose_twice_sample :
  snd (CmdBookClose Sample.CheckArgNone [] Sample.opened) = Done /\
  CmdBookClose Sample.CheckArgNone []
               (fst (CmdBookClose Sample.CheckArgNone [] Sample.opened)) =
  (fst (CmdBookClose Sample.CheckArgNone [] Sample.opened),
   HtpFailure "No open book.").
Proof.
  split; [reflexivity|].
  apply (CmdBookClose_twice string N Sample.HtpCommand Sample.CheckArgNone
                            [] Sample.opened).
  reflexivity.
Defined.

Lemma CmdBookOpen_failed_sample :
  (Sample.CheckNuArgLessEqual [""] 2 = true /\
   Sample.Arg [""] 0 = Some "" /\
   Sample.Book_new "" = inr "no file name") /\
  snd (CmdBookOpen Sample.CheckNuArgLessEqual Sample.Arg Sample.Book_new
                   [""] Sample.opened) = Done /\
  m_book (fst (CmdBookOpen Sample.CheckNuArgLessEqual Sample.Arg
                           Sample.Book_new [""] Sample.opened))
    = m_book Sample.opened /\
  response (fst (CmdBookOpen Sample.CheckNuArgLessEqual Sample.Arg
                             Sample.Book_new [""] Sample.opened))
    = (response Sample.opened
         ++ [Str "Error opening book: '"; Str "no file name";
             Str quote_nl])%list.
Proof.
  split; [repeat split|].
  apply (CmdBookOpen_failed string N Sample.HtpCommand
                            Sample.CheckNuArgLessEqual Sample.Arg
                            Sample.Book_new [""] Sample.opened
                            "" "no file name"); reflexivity.
Defined.

Lemma CmdBookOpen_then_close_sample :
  (Sample.CheckNuArgLessEqual ["new.db"] 2 = true /\
   Sample.Arg ["new.db"] 0 = Some "new.db" /\
   Sample.Book_new "new.db" = inl "new.db" /\
   Sample.CheckArgNone [] = true) /\
  CmdBookClose Sample.CheckArgNone []
    (fst (CmdBookOpen Sample.CheckNuArgLessEqual Sample.Arg Sample.Book_new
                      ["new.db"] Sample.opened)) =
  (set_book Sample.opened None, Done).
Proof.
  split; [repeat split|].
  apply (CmdBookOpen_then_close string N Sample.HtpCommand
           Sample.CheckArgNone Sample.CheckNuArgLessEqual Sample.Arg
           Sample.Book_new ["new.db"] [] Sample.opened "new.db" "new.db");
    reflexivity.
Defined.

Lemma CmdBookParam_frame_sample :
  m_bookCheck
    (fst (CmdBookParam Sample.NuArg Sample.Arg Sample.FloatArg
                       Sample.SizeTypeArg ["book_min_count"; "111"]
                       Sample.closed))
    <> m_bookCheck Sample.closed /\
  Sample.NuArg ["book_min_count"; "111"] = 2%nat /\
  (Sample.Arg ["book_min_count"; "111"] 0 = Some "book_min_count" \/
   Sample.Arg ["book_min_count"; "111"] 0 = Some "book_count_weight") /\
  snd (CmdBookParam Sample.NuArg Sample.Arg Sample.FloatArg
                    Sample.SizeTypeArg ["book_min_count"; "111"]
                    Sample.closed) = Done.
Proof.
  assert (H : m_bookCheck
    (fst (CmdBookParam Sample.NuArg Sample.Arg Sample.FloatArg
                       Sample.SizeTypeArg ["book_min_count"; "111"]
                       Sample.closed))
    <> m_bookCheck Sample.closed) by (vm_compute; discriminate).
  split; [exact H|].
  apply (CmdBookParam_frame string N Sample.HtpCommand Sample.NuArg
           Sample.Arg Sample.FloatArg Sample.SizeTypeArg
           ["book_min_count"; "111"] Sample.closed H).
Defined.

Lemma CmdBookParam_set_then_show_sample :
  (Sample.NuArg ["book_min_count"; "111"] = 2%nat /\
   Sample.Arg ["book_min_count"; "111"] 0 = Some "book_min_count" /\
   Sample.SizeTypeArg ["book_min_count"; "111"] 1 0 = Some 3%N /\
   Sample.NuArg [] = 0%nat) /\
  snd (CmdBookParam Sample.NuArg Sample.Arg Sample.FloatArg
                    Sample.SizeTypeArg ["book_min_count"; "111"]
                    Sample.closed) = Done /\
  response
    (fst (CmdBookParam Sample.NuArg Sample.Arg Sample.FloatArg
            Sample.SizeTypeArg []
            (fst (CmdBookParam Sample.NuArg Sample.Arg Sample.FloatArg
                    Sample.SizeTypeArg ["book_min_count"; "111"]
                    Sample.closed)))) =
  (response Sample.closed
     ++ [Chr nl;
         Str "[string] book_count_weight ";
         Flt (CountWeight (m_bookCheck Sample.closed)); Chr nl;
         Str "[string] book_min_count ";
         Siz 3%N; Chr nl])%list.
Proof.
  split; [repeat split|].
  apply (CmdBookParam_set_then_show string N Sample.HtpCommand Sample.NuArg
           Sample.Arg Sample.FloatArg Sample.SizeTypeArg
           ["book_min_count"; "111"] [] Sample.closed 3%N); reflexivity.
Defined.

End BookCommandsSamples.
